(** * off-db-utility: the two bulk-transfer scripts

    [import_openfoodfacts.py] loads a tab-separated file into the table
    [openfoodfacts] of the SQLite file [off-database.db];
    [import_supabase_data.py] copies the tables [products] and [ingredients]
    of a PostgreSQL server into the same file.

    The scripts are embedded as functions in a state-and-exception monad over
    a SQLite connection.  Every interaction with the source or the destination
    is recorded, together with the connection it leaves behind, so that
    properties of the order of reads, writes and commits can be stated.

    What the development leaves out: what the scripts print (the counters of
    the final report of the text import are kept), wall-clock time, file
    sizes, and the resource limits of SQLite. *)

From stdpp Require Import base list strings gmap sorting.
From Stdlib Require Import ZArith Ascii.
From Equations Require Import Equations.

Local Open Scope string_scope.
Local Open Scope Z_scope.
Local Open Scope list_scope.

(** ** Values bound to SQL statements

    Python's [None] and [str].  The remote tables are read in their text
    form. *)

Inductive value :=
| Null
| Text (s : string).

#[global] Instance value_eq_dec : EqDecision value.
Proof. solve_decision. Defined.

Abbreviation row := (list value).

(** [len(x)] as a Python integer. *)
Definition len {A} (l : list A) : Z := Z.of_nat (length l).

(** ** The part of SQLite the scripts rely on *)

Module Sqlite.

Inductive coltype := TEXT | INTEGER.

Record column := Column {
  col_name : string;
  col_type : coltype;
  col_unique : bool        (* PRIMARY KEY or UNIQUE *)
}.

Record table := Table {
  t_columns : list column;
  t_indexes : list (string * string);   (* index name, indexed column *)
  t_rows : list row
}.

Abbreviation database := (gmap string table).

(** A connection of Python's [sqlite3] module in its default transaction
    mode: [disk] is the committed database, [txn] the working copy of the
    transaction that is open, if one is. *)
Record connection := Connection {
  disk : database;
  txn : option database
}.

Definition connect (db : database) : connection :=
  {| disk := db; txn := None |}.

(** What statements on the connection see. *)
Definition current (c : connection) : database :=
  default (disk c) (txn c).

Inductive error :=
| OperationalError     (* the statement cannot be prepared or run *)
| ProgrammingError     (* wrong number of bindings *)
| IntegrityError.      (* a uniqueness constraint fails *)

(** SQLite compares identifiers without regard to ASCII case. *)
Definition fold_ascii (a : ascii) : ascii :=
  let n := nat_of_ascii a in
  if bool_decide (65 ≤ n ≤ 90)%nat then ascii_of_nat (n + 32) else a.

Fixpoint fold_case (s : string) : string :=
  match s with
  | EmptyString => EmptyString
  | String a s' => String (fold_ascii a) (fold_case s')
  end.

Definition same_name (a b : string) : bool :=
  bool_decide (fold_case a = fold_case b).

Definition has_column (name : string) (cols : list column) : bool :=
  existsb (λ c, same_name name (col_name c)) cols.

(** [DROP TABLE IF EXISTS name]; the indexes of the table go with it. *)
Definition drop_table_if_exists (name : string) (db : database) : database :=
  delete name db.

(** [CREATE TABLE name (cols)]. *)
Definition create_table (name : string) (cols : list column) (db : database)
  : error + database :=
  match db !! name with
  | Some _ => inl OperationalError
  | None =>
      if bool_decide (cols = []) then inl OperationalError
      else if bool_decide (NoDup (fold_case ∘ col_name <$> cols))
      then inr (<[name := Table cols [] []]> db)
      else inl OperationalError
  end.

(** [CREATE INDEX iname ON tname(col)].  Index names are taken to be
    private to the table they are created on. *)
Definition create_index (iname tname col : string) (db : database)
  : error + database :=
  match db !! tname with
  | None => inl OperationalError
  | Some t =>
      if has_column col (t_columns t) && negb (bool_decide (iname ∈ (t_indexes t).*1))
      then inr (<[tname := Table (t_columns t) (t_indexes t ++ [(iname, col)]) (t_rows t)]> db)
      else inl OperationalError
  end.

(** The positions of the columns declared PRIMARY KEY or UNIQUE. *)
Fixpoint unique_positions_from (i : nat) (cols : list column) : list nat :=
  match cols with
  | [] => []
  | c :: cols' =>
      (if col_unique c then [i] else []) ++ unique_positions_from (S i) cols'
  end.

Definition unique_positions (cols : list column) : list nat :=
  unique_positions_from 0 cols.

(** Two rows collide on a unique column when both hold the same value there
    and that value is not NULL: SQLite counts NULLs as distinct, also in a
    PRIMARY KEY column that is not an integer. *)
Definition collide_at (r1 r2 : row) (i : nat) : bool :=
  match r1 !! i, r2 !! i with
  | Some (Text a), Some (Text b) => bool_decide (a = b)
  | _, _ => false
  end.

Definition collide (cols : list column) (r1 r2 : row) : bool :=
  existsb (collide_at r1 r2) (unique_positions cols).

Inductive conflict_clause := ABORT | REPLACE.

(** One row of [INSERT INTO tname VALUES (?, ..., ?)] with [arity]
    placeholders ([ABORT]), or of [INSERT OR REPLACE INTO tname (all the
    columns in their order) VALUES (?, ..., ?)] ([REPLACE]). *)
Definition insert_row (on_conflict : conflict_clause) (tname : string)
    (arity : nat) (r : row) (db : database) : error + database :=
  match db !! tname with
  | None => inl OperationalError
  | Some t =>
      if negb (bool_decide (length (t_columns t) = arity)) then inl OperationalError
      else if negb (bool_decide (length r = arity)) then inl ProgrammingError
      else
        match on_conflict with
        | ABORT =>
            if existsb (collide (t_columns t) r) (t_rows t) then inl IntegrityError
            else inr (<[tname := Table (t_columns t) (t_indexes t) (t_rows t ++ [r])]> db)
        | REPLACE =>
            let kept := filter (λ r', collide (t_columns t) r r' = false) (t_rows t) in
            inr (<[tname := Table (t_columns t) (t_indexes t) (kept ++ [r])]> db)
        end
  end.

(** [SELECT COUNT ( * ) FROM tname]. *)
Definition count_rows (tname : string) (db : database) : error + Z :=
  match db !! tname with
  | None => inl OperationalError
  | Some t => inr (len (t_rows t))
  end.

(** *** Statements on a connection *)

Inductive statement :=
| PRAGMA (name setting : string)
| DROP_TABLE_IF_EXISTS (name : string)
| CREATE_TABLE (name : string) (cols : list column)
| CREATE_INDEX (iname tname col : string).

Definition run_statement (sql : statement) (db : database) : error + database :=
  match sql with
  | PRAGMA _ _ => inr db
  | DROP_TABLE_IF_EXISTS name => inr (drop_table_if_exists name db)
  | CREATE_TABLE name cols => create_table name cols db
  | CREATE_INDEX iname tname col => create_index iname tname col db
  end.

(** Statements other than INSERT do not open a transaction: outside of one
    they take effect on the committed database at once. *)
Definition conn_execute (sql : statement) (c : connection) : error + connection :=
  match txn c with
  | Some w =>
      match run_statement sql w with
      | inr w' => inr (Connection (disk c) (Some w'))
      | inl e => inl e
      end
  | None =>
      match run_statement sql (disk c) with
      | inr d => inr (Connection d None)
      | inl e => inl e
      end
  end.

(** The rows of an [executemany] go in one after the other; the first one
    that fails stops the call and leaves the earlier ones in place. *)
Fixpoint insert_rows (on_conflict : conflict_clause) (tname : string)
    (arity : nat) (rs : list row) (db : database) : option error * database :=
  match rs with
  | [] => (None, db)
  | r :: rs' =>
      match insert_row on_conflict tname arity r db with
      | inl e => (Some e, db)
      | inr db' => insert_rows on_conflict tname arity rs' db'
      end
  end.

(** [cursor.executemany] of an INSERT: a transaction is opened first when
    none is open. *)
Definition conn_executemany (on_conflict : conflict_clause) (tname : string)
    (arity : nat) (rs : list row) (c : connection) : option error * connection :=
  let '(e, w) := insert_rows on_conflict tname arity rs (current c) in
  (e, Connection (disk c) (Some w)).

(** [conn.commit()]. *)
Definition conn_commit (c : connection) : connection :=
  Connection (current c) None.

(** [conn.close()], or the end of the process: an open transaction is
    lost. *)
Definition conn_close (c : connection) : database := disk c.

End Sqlite.

(** ** The monad of the scripts *)

Inductive exn :=
| StopIteration
| SqliteError (e : Sqlite.error)
| PsycopgError.

Inductive result (A : Type) :=
| Ok (a : A)
| Raise (e : exn).
Arguments Ok {A} a.
Arguments Raise {A} e.

(** What a script does to its source and its destination. *)
Inductive event :=
| Fetch (source : string) (rs : list row)   (* records handed over by a source *)
| Execute (sql : Sqlite.statement)
| ExecuteMany (tname : string) (rs : list row)
| Commit.

(** [history] holds the events so far, newest first, each with the
    connection it left. *)
Record state := State {
  conn : Sqlite.connection;
  history : list (event * Sqlite.connection)
}.

Definition M (A : Type) : Type := state → result A * state.

#[global] Instance M_ret : MRet M := λ A a s, (Ok a, s).

#[global] Instance M_bind : MBind M := λ A B f m s,
  match m s with
  | (Ok a, s') => f a s'
  | (Raise e, s') => (Raise e, s')
  end.

Definition raise {A} (e : exn) : M A := λ s, (Raise e, s).

Definition record (ev : event) (c : Sqlite.connection) (s : state) : state :=
  State c ((ev, c) :: history s).

(** [source] hands over [rs]. *)
Definition fetch (source : string) (rs : list row) : M unit :=
  λ s, (Ok (), record (Fetch source rs) (conn s) s).

Definition execute (sql : Sqlite.statement) : M unit := λ s,
  match Sqlite.conn_execute sql (conn s) with
  | inr c => (Ok (), record (Execute sql) c s)
  | inl e => (Raise (SqliteError e), s)
  end.

Definition executemany (on_conflict : Sqlite.conflict_clause) (tname : string)
    (arity : nat) (rs : list row) : M unit := λ s,
  let '(e, c) := Sqlite.conn_executemany on_conflict tname arity rs (conn s) in
  let s' := record (ExecuteMany tname rs) c s in
  match e with
  | None => (Ok (), s')
  | Some e => (Raise (SqliteError e), s')
  end.

Definition commit : M unit :=
  λ s, (Ok (), record Commit (Sqlite.conn_commit (conn s)) s).

(** [cursor.execute('SELECT COUNT ( * ) FROM tname')] followed by
    [cursor.fetchone()[0]]. *)
Definition select_count (tname : string) : M Z := λ s,
  match Sqlite.count_rows tname (Sqlite.current (conn s)) with
  | inr n => (Ok n, s)
  | inl e => (Raise (SqliteError e), s)
  end.

(** The events in the order they happened. *)
Definition trace (s : state) : list event := reverse (history s).*1.

(** ** import_openfoodfacts.py *)

Module ImportOpenfoodfacts.
Import Sqlite.

(** A tab-separated file as [csv.reader] hands it over: the fields of each
    line, the header line first. *)
Abbreviation csv := (list (list string)).

Record files := Files {
  csv_file : option csv;            (* [None]: the path does not exist *)
  db_file : option database
}.

Definition get_csv_columns (f : csv) : M (list string) :=
  match f with
  | [] => raise StopIteration
  | header :: _ => mret header
  end.

(** Line 25: every column is declared TEXT. *)
Definition column_defs (columns : list string) : list column :=
  (λ col, Column col TEXT false) <$> columns.

Definition create_openfoodfacts_table (columns : list string) : M (list string) :=
  execute (DROP_TABLE_IF_EXISTS "openfoodfacts");;
  execute (CREATE_TABLE "openfoodfacts" (column_defs columns));;
  execute (CREATE_INDEX "idx_openfoodfacts_code" "openfoodfacts" "code");;
  commit;;
  mret columns.

(** Lines 65-68: pad or truncate [row] to match the column count. *)
Definition pad_or_truncate (columns : list string) (row : list string) : list string :=
  if bool_decide (len row < len columns) then
    row ++ replicate (length columns - length row) ""
  else if bool_decide (len row > len columns) then
    take (length columns) row
  else row.

Definition bind_row (r : list string) : row := Text <$> r.

(** The [for] loop of lines 63-79 over the lines [reader] still has. *)
Fixpoint import_rows (batch_size : Z) (columns : list string) (reader : csv)
    (batch : list (list string)) (total_imported : Z)
  : M (list (list string) * Z) :=
  match reader with
  | [] => mret (batch, total_imported)
  | row :: reader' =>
      fetch "csv" [bind_row row];;
      let row := pad_or_truncate columns row in
      let batch := batch ++ [row] in
      if bool_decide (len batch >= batch_size) then
        executemany ABORT "openfoodfacts" (length columns) (bind_row <$> batch);;
        let total_imported := total_imported + len batch in
        (if bool_decide (total_imported `mod` 1000000 = 0) then commit else mret ());;
        import_rows batch_size columns reader' [] total_imported
      else
        import_rows batch_size columns reader' batch total_imported
  end.

(** [import_csv_data], with its local constant [batch_size] as an
    argument. *)
Definition import_csv_data_with (batch_size : Z) (f : csv) (columns : list string)
  : M Z :=
  execute (PRAGMA "journal_mode" "WAL");;
  execute (PRAGMA "synchronous" "NORMAL");;
  execute (PRAGMA "cache_size" "1000000");;
  match f with
  | [] => raise StopIteration
  | _ :: reader =>
      '(batch, total_imported) ← import_rows batch_size columns reader [] 0;
      total_imported ←
        (if bool_decide (batch ≠ []) then
           executemany ABORT "openfoodfacts" (length columns) (bind_row <$> batch);;
           mret (total_imported + len batch)
         else mret total_imported);
      commit;;
      mret total_imported
  end.

Definition import_csv_data : csv → list string → M Z :=
  import_csv_data_with 10000.

(** What a run leaves behind. *)
Record outcome := Outcome {
  exit_code : Z;
  db_after : option database;       (* the database file after the run *)
  report : option (Z * Z);          (* records imported, records in table *)
  final : option state              (* the connection and its history *)
}.

(** The [try] block of [main] up to the final report.  The preview of
    sample rows that follows it only reads. *)
Definition try_block (batch_size : Z) (f : csv) : M (Z * Z) :=
  columns ← get_csv_columns f;
  create_openfoodfacts_table columns;;
  total_imported ← import_csv_data_with batch_size f columns;
  final_count ← select_count "openfoodfacts";
  mret (total_imported, final_count).

(** [main]: both early returns and the [except] branch end the process
    normally. *)
Definition main_with (batch_size : Z) (fs : files) : outcome :=
  match csv_file fs with
  | None => Outcome 0 (db_file fs) None None
  | Some f =>
      match db_file fs with
      | None => Outcome 0 None None None
      | Some db =>
          match try_block batch_size f (State (connect db) []) with
          | (Ok r, s) => Outcome 0 (Some (conn_close (conn s))) (Some r) (Some s)
          | (Raise _, s) => Outcome 0 (Some (conn_close (conn s))) None (Some s)
          end
      end
  end.

Definition main : files → outcome := main_with 10000.

End ImportOpenfoodfacts.

(** ** import_supabase_data.py *)

Module ImportSupabaseData.
Import Sqlite.

(** A row of [SELECT product_name, brand, upc, ean13, ingredients,
    lastupdated, analysis, created, mfg, imageurl, classification, issues
    FROM products]. *)
Record product := Product {
  p_product_name : value;
  p_brand : value;
  p_upc : value;
  p_ean13 : value;
  p_ingredients : value;
  p_lastupdated : value;
  p_analysis : value;
  p_created : value;
  p_mfg : value;
  p_imageurl : value;
  p_classification : value;
  p_issues : value
}.

(** A row of [SELECT title, class, productcount, lastupdated, created,
    primary_class FROM ingredients]. *)
Record ingredient := Ingredient {
  i_title : value;
  i_class : value;
  i_productcount : value;
  i_lastupdated : value;
  i_created : value;
  i_primary_class : value
}.

Definition product_row (p : product) : row :=
  [p_product_name p; p_brand p; p_upc p; p_ean13 p; p_ingredients p;
   p_lastupdated p; p_analysis p; p_created p; p_mfg p; p_imageurl p;
   p_classification p; p_issues p].

Definition ingredient_row (i : ingredient) : row :=
  [i_title i; i_class i; i_productcount i; i_lastupdated i; i_created i;
   i_primary_class i].

(** The PostgreSQL server; its tables do not change during a run. *)
Record server := Server {
  products : list product;
  ingredients : list ingredient
}.

Record world := World {
  remote : option server;           (* [None]: [psycopg2.connect] fails *)
  db_file : option database         (* [None]: no file yet *)
}.

(** [ORDER BY key]: ascending, NULLs last. *)
Definition value_le (a b : value) : bool :=
  match a, b with
  | _, Null => true
  | Null, Text _ => false
  | Text x, Text y => String.leb x y
  end.

Definition order_by {A} (key : A → value) (table : list A) : list A :=
  merge_sort (λ r1 r2, value_le (key r1) (key r2)) table.

(** [SELECT ... ORDER BY key LIMIT limit OFFSET offset]. *)
Definition select_page {A} (key : A → value) (table : list A) (limit offset : Z)
  : option (list A) :=
  if bool_decide (limit < 0 ∨ offset < 0) then None
  else Some (take (Z.to_nat limit) (drop (Z.to_nat offset) (order_by key table))).

Definition inspect {A} (a : A) : {b | a = b} := exist _ a eq_refl.

Section export.
Context {A : Type}.
Variable key : A → value.
Variable to_row : A → row.
Variable tname : string.
Variable arity : nat.
Variable table : list A.

(** The [while offset < total] loop shared by [export_products] (lines
    87-113) and [export_ingredients] (lines 135-159). *)
Equations? export_loop (batch_size total offset exported : Z) : M Z
  by wf (Z.to_nat (total - offset)) lt :=
export_loop batch_size total offset exported with decide (offset < total) := {
  | right _ := mret exported
  | left _ with inspect (select_page key table batch_size offset) := {
      | exist _ None _ := raise PsycopgError
      | exist _ (Some []) _ := fetch tname [];; mret exported
      | exist _ (Some rows) _ :=
          fetch tname (to_row <$> rows);;
          executemany REPLACE tname arity (to_row <$> rows);;
          commit;;
          export_loop batch_size total (offset + batch_size) (exported + len rows)
    }
}.
Proof.
  unfold select_page in *. case_bool_decide; [done|].
  destruct (Z.to_nat batch_size) eqn:?; [done|]. lia.
Qed.

End export.

Definition products_columns : list column :=
  [Column "product_name" TEXT false; Column "brand" TEXT false;
   Column "upc" TEXT false; Column "ean13" TEXT true;
   Column "ingredients" TEXT false; Column "lastupdated" TEXT false;
   Column "analysis" TEXT false; Column "created" TEXT false;
   Column "mfg" TEXT false; Column "imageurl" TEXT false;
   Column "classification" TEXT false; Column "issues" TEXT false].

Definition ingredients_columns : list column :=
  [Column "title" TEXT true; Column "class" TEXT false;
   Column "productcount" INTEGER false; Column "lastupdated" TEXT false;
   Column "created" TEXT false; Column "primary_class" TEXT false].

(** [create_sqlite_db], on the connection that [sqlite3.connect] opened. *)
Definition create_sqlite_db : M unit :=
  execute (PRAGMA "journal_mode" "WAL");;
  execute (PRAGMA "synchronous" "NORMAL");;
  execute (PRAGMA "cache_size" "1000000");;
  execute (PRAGMA "temp_store" "memory");;
  execute (DROP_TABLE_IF_EXISTS "products");;
  execute (DROP_TABLE_IF_EXISTS "ingredients");;
  execute (CREATE_TABLE "products" products_columns);;
  execute (CREATE_TABLE "ingredients" ingredients_columns);;
  execute (CREATE_INDEX "idx_products_ean13" "products" "ean13");;
  execute (CREATE_INDEX "idx_products_classification" "products" "classification");;
  execute (CREATE_INDEX "idx_ingredients_title" "ingredients" "title");;
  execute (CREATE_INDEX "idx_ingredients_class" "ingredients" "class");;
  commit.

(** [export_products] and [export_ingredients], with their local constant
    [batch_size] as an argument; [total] is the answer to
    [SELECT COUNT ( * )]. *)
Definition export_products_with (batch_size : Z) (pg : server) : M Z :=
  let total := len (products pg) in
  export_loop p_ean13 product_row "products" 12 (products pg) batch_size total 0 0.

Definition export_ingredients_with (batch_size : Z) (pg : server) : M Z :=
  let total := len (ingredients pg) in
  export_loop i_title ingredient_row "ingredients" 6 (ingredients pg) batch_size total 0 0.

Definition export_products : server → M Z := export_products_with 10000.
Definition export_ingredients : server → M Z := export_ingredients_with 20000.

Record outcome := Outcome {
  exit_code : Z;
  db_after : option database;       (* the database file after the run *)
  report : option (Z * Z);          (* products, ingredients *)
  final : option state              (* the connection and its history *)
}.

(** The [try] block of [main] once the server is connected. *)
Definition try_block (bp bi : Z) (pg : server) : M (Z * Z) :=
  create_sqlite_db;;
  products_count ← export_products_with bp pg;
  ingredients_count ← export_ingredients_with bi pg;
  mret (products_count, ingredients_count).

(** [main]: both [except] branches call [sys.exit(1)]; [finally] closes
    the connections that were opened.  [sqlite3.connect] creates the file
    when there is none. *)
Definition main_with (bp bi : Z) (w : world) : outcome :=
  match remote w with
  | None => Outcome 1 (db_file w) None None
  | Some pg =>
      match try_block bp bi pg (State (connect (default ∅ (db_file w))) []) with
      | (Ok r, s) => Outcome 0 (Some (conn_close (conn s))) (Some r) (Some s)
      | (Raise _, s) => Outcome 1 (Some (conn_close (conn s))) None (Some s)
      end
  end.

Definition main : world → outcome := main_with 10000 20000.

End ImportSupabaseData.


(** ** Reading a trace *)

(** The batches handed to [executemany] on [tname], in order. *)
Definition writes (tname : string) (tr : list event) : list (list row) :=
  omap (λ ev, match ev with
              | ExecuteMany t rs => if bool_decide (t = tname) then Some rs else None
              | _ => None
              end) tr.

(** What [source] handed over, read by read. *)
Definition fetches (source : string) (tr : list event) : list (list row) :=
  omap (λ ev, match ev with
              | Fetch src rs => if bool_decide (src = source) then Some rs else None
              | _ => None
              end) tr.

(** Whether, at the end of [tr], a batch has been written and not yet
    committed. *)
Definition pending (tr : list event) : bool :=
  foldl (λ dirty ev, match ev with
                     | ExecuteMany _ _ => true
                     | Commit => false
                     | _ => dirty
                     end) false tr.

(** Reading from a source and writing a batch. *)
Definition transfers (ev : event) : bool :=
  match ev with
  | Fetch _ _ | ExecuteMany _ _ => true
  | _ => false
  end.

(** Nothing is read from a source, and no further batch is written, while a
    written batch is uncommitted. *)
Definition commits_before_next (tr : list event) : Prop :=
  ∀ pre ev post, tr = pre ++ ev :: post → transfers ev = true → pending pre = false.

(** The commit discipline: each batch is committed on its own before the
    next read, and none is left uncommitted at the end. *)
Definition commits_each_batch (tr : list event) : Prop :=
  commits_before_next tr ∧ pending tr = false.


(** A computation only adds to the trace. *)
Definition grows {A} (m : M A) : Prop :=
  ∀ s, ∃ ext, trace (m s).2 = trace s ++ ext.

(** ** Insert-or-replace *)

(** The rows of a table with columns [cols] after [INSERT OR REPLACE] of the
    rows [rs], one after the other. *)
Definition upsert (cols : list Sqlite.column) (rows0 rs : list row) : list row :=
  foldl (λ acc r, filter (λ r', Sqlite.collide cols r r' = false) acc ++ [r]) rows0 rs.

(** The ean13 of a row of [products], when it is not NULL. *)
Definition ean13_of (r : row) : option string :=
  match r !! 3%nat with
  | Some (Text v) => Some v
  | _ => None
  end.

(** The table [products] is there as [create_sqlite_db] declares it and no
    two of its rows have the same ean13. *)
Definition ean13_unique (db : Sqlite.database) : Prop :=
  ∃ t, db !! "products" = Some t
       ∧ Sqlite.t_columns t = ImportSupabaseData.products_columns
       ∧ NoDup (omap ean13_of (Sqlite.t_rows t)).

(** It is so both in what the connection sees and in what is committed. *)
Definition ean13_unique_conn (c : Sqlite.connection) : Prop :=
  ean13_unique (Sqlite.current c) ∧ ean13_unique (Sqlite.disk c).

Definition creates_products (ev : event) : bool :=
  match ev with
  | Execute (Sqlite.CREATE_TABLE name _) => bool_decide (name = "products")
  | _ => false
  end.

(** The connections left by the events of a history [h], given oldest first,
    from the creation of [products] on; [created] tells whether it was
    created before [h]. *)
Fixpoint since_creation (created : bool) (h : list (event * Sqlite.connection))
  : list Sqlite.connection :=
  match h with
  | [] => []
  | (ev, c) :: h' =>
      let created := created || creates_products ev in
      (if created then [c] else []) ++ since_creation created h'
  end.

(** ** Cutting a sequence into batches *)

(** [batches n cur l]: the full batches that come out when the elements of
    [l] are added one by one to the batch [cur] and the batch is flushed as
    soon as it holds [n] elements, and the batch left at the end. *)
Fixpoint batches {A} (n : nat) (cur l : list A) : list (list A) * list A :=
  match l with
  | [] => ([], cur)
  | x :: l' =>
      let cur' := cur ++ [x] in
      if decide (n ≤ length cur')%nat then
        let '(bs, rest) := batches n [] l' in (cur' :: bs, rest)
      else batches n cur' l'
  end.

Definition chunks {A} (n : nat) (l : list A) : list (list A) :=
  let '(bs, rest) := batches n [] l in
  bs ++ (if bool_decide (rest = []) then [] else [rest]).

(** ** What becomes of a header line

    SQLite takes the CREATE TABLE built from a header when the header has at
    least one name and no name twice, and the CREATE INDEX when one of the
    names is [code]. *)







(** The database file once [create_sqlite_db] has run on [db]. *)
Definition created_db (db : Sqlite.database) : Sqlite.database :=
  <["ingredients" :=
      Sqlite.Table ImportSupabaseData.ingredients_columns
        [("idx_ingredients_title", "title"); ("idx_ingredients_class", "class")] []]>
    (<["products" :=
         Sqlite.Table ImportSupabaseData.products_columns
           [("idx_products_ean13", "ean13");
            ("idx_products_classification", "classification")] []]> db).

(** The database file once a whole run has copied the tables of [pg]. *)
Definition exported_db (pg : ImportSupabaseData.server) (db : Sqlite.database)
  : Sqlite.database :=
  <["ingredients" :=
      Sqlite.Table ImportSupabaseData.ingredients_columns
        [("idx_ingredients_title", "title"); ("idx_ingredients_class", "class")]
        (upsert ImportSupabaseData.ingredients_columns []
           (ImportSupabaseData.ingredient_row
              <$> ImportSupabaseData.order_by ImportSupabaseData.i_title
                    (ImportSupabaseData.ingredients pg)))]>
    (<["products" :=
         Sqlite.Table ImportSupabaseData.products_columns
           [("idx_products_ean13", "ean13");
            ("idx_products_classification", "classification")]
           (upsert ImportSupabaseData.products_columns []
              (ImportSupabaseData.product_row
                 <$> ImportSupabaseData.order_by ImportSupabaseData.p_ean13
                       (ImportSupabaseData.products pg)))]> db).

(** ** Keys and commits *)





(** ** Inputs for the examples *)



Definition example_product (ean13 : string) : ImportSupabaseData.product :=
  ImportSupabaseData.Product (Text "Tofu") Null Null (Text ean13) Null Null Null Null Null
    Null (Text "vegan") Null.

Definition example_ingredient (title : string) : ImportSupabaseData.ingredient :=
  ImportSupabaseData.Ingredient (Text title) (Text "vegan") (Text "1") Null Null Null.

Definition example_server : ImportSupabaseData.server :=
  ImportSupabaseData.Server
    [example_product "3"; example_product "1"; example_product "2"]
    [example_ingredient "salt"; example_ingredient "agar"].

Definition example_world : ImportSupabaseData.world :=
  ImportSupabaseData.World (Some example_server) None.

(** The input file is missing; the database file is missing. *)
Definition missing_input_file : ImportOpenfoodfacts.files :=
  ImportOpenfoodfacts.Files None (Some ∅).

Definition missing_database : ImportOpenfoodfacts.files :=
  ImportOpenfoodfacts.Files (Some [["code"]; ["0001"]]) None.

(** The server cannot be reached; the database file holds a table of an
    earlier run. *)
Definition unreachable_server : ImportSupabaseData.world :=
  ImportSupabaseData.World None
    (Some {["products" := Sqlite.Table ImportSupabaseData.products_columns []
                            [ImportSupabaseData.product_row (example_product "1")]]}).

(** A file without any line; a header without a column [code]; a header
    that repeats a name, in another letter case. *)
Definition empty_file (db : Sqlite.database) : ImportOpenfoodfacts.files :=
  ImportOpenfoodfacts.Files (Some []) (Some db).



(** A database file with a table of another application and an
    [openfoodfacts] table of an earlier run. *)
Definition used_database : Sqlite.database :=
  {["notes" := Sqlite.Table [Sqlite.Column "body" Sqlite.TEXT false] [] [[Text "keep"]];
    "openfoodfacts" := Sqlite.Table [Sqlite.Column "code" Sqlite.TEXT false] []
                         [[Text "0001"]]]}.





(** * Proofs *)

(** ** Running the monad *)

Lemma run_bind {A B} (m : M A) (f : A → M B) (s : state) :
  (m ≫= f) s = match m s with
               | (Ok a, s') => f a s'
               | (Raise e, s') => (Raise e, s')
               end.
Proof. reflexivity. Qed.

Lemma run_ret {A} (a : A) (s : state) : (mret a : M A) s = (Ok a, s).
Proof. reflexivity. Qed.

Lemma trace_record ev c s : trace (record ev c s) = trace s ++ [ev].
Proof. unfold trace, record. simpl. by rewrite reverse_cons. Qed.

Lemma writes_app tname tr1 tr2 :
  writes tname (tr1 ++ tr2) = writes tname tr1 ++ writes tname tr2.
Proof. apply omap_app. Qed.

Lemma fetches_app source tr1 tr2 :
  fetches source (tr1 ++ tr2) = fetches source tr1 ++ fetches source tr2.
Proof. apply omap_app. Qed.

Lemma pending_snoc tr ev :
  pending (tr ++ [ev]) = match ev with
                         | ExecuteMany _ _ => true
                         | Commit => false
                         | _ => pending tr
                         end.
Proof. unfold pending. by rewrite foldl_app. Qed.



(** *** Computations only add to the trace *)


Lemma grows_raise {A} e : grows (raise (A:=A) e).
Proof. intros s. exists []. by rewrite app_nil_r. Qed.




Lemma grows_execute sql : grows (execute sql).
Proof.
  intros s. unfold execute. destruct (Sqlite.conn_execute sql (conn s)).
  - exists []. by rewrite app_nil_r.
  - eexists. apply trace_record.
Qed.




(** ** Batches *)

Section batches.
Context {A : Type}.
Implicit Types (cur l : list A) (n : nat).





Lemma chunks_nonempty n l : Forall (λ b, b ≠ []) (chunks n l).
Proof.
  unfold chunks.
  assert (∀ cur, Forall (λ b, b ≠ []) (batches n cur l).1) as H.
  { induction l as [|x l IH]; intros cur; simpl; [done|].
    case_decide; [|done].
    specialize (IH []). destruct (batches n [] l) as [bs rest]. simpl in *.
    constructor; [|done]. by destruct cur. }
  specialize (H []). destruct (batches n [] l) as [bs rest]. simpl in *.
  apply Forall_app. split; [done|]. case_bool_decide; by repeat constructor.
Qed.

End batches.

Section chunks.
Context {A : Type}.
Implicit Types (cur l : list A) (n : nat).

Lemma batches_fill n cur l1 l2 :
  l1 ≠ [] → (length cur + length l1 = n)%nat →
  batches n cur (l1 ++ l2) = ((cur ++ l1) :: (batches n [] l2).1, (batches n [] l2).2).
Proof.
  revert cur. induction l1 as [|x l1 IH]; intros cur Hne Hlen; [done|].
  simpl in *. case_decide as Hn.
  - destruct l1 as [|y l1]; simpl in *.
    + by destruct (batches n [] l2).
    + rewrite length_app in Hn. simpl in Hn. lia.
  - rewrite length_app in Hn. simpl in Hn.
    destruct l1 as [|y l1]; [simpl in *; lia|].
    rewrite IH; [|done|rewrite length_app; simpl in *; lia].
    by rewrite <- (assoc_L (++)).
Qed.

Lemma batches_short n cur l :
  (length cur + length l < n)%nat → batches n cur l = ([], cur ++ l).
Proof.
  revert cur. induction l as [|x l IH]; intros cur Hlen; simpl in *.
  - by rewrite app_nil_r.
  - case_decide as Hn; [rewrite length_app in Hn; simpl in Hn; lia|].
    rewrite IH; [|rewrite length_app; simpl; lia].
    by rewrite <- (assoc_L (++)).
Qed.

Lemma chunks_nil n : chunks n (@nil A) = [].
Proof. reflexivity. Qed.

(** The first batch is the first [n] elements; the rest is cut the same
    way. *)
Lemma chunks_unfold n l :
  (1 ≤ n)%nat → l ≠ [] → chunks n l = take n l :: chunks n (drop n l).
Proof.
  intros Hn Hl. destruct (decide (n ≤ length l)%nat) as [Hle|Hlt].
  - unfold chunks. rewrite <- (take_drop n l) at 1.
    rewrite batches_fill.
    + by destruct (batches n [] (drop n l)).
    + destruct l; [done|]. destruct n; [lia|done].
    + rewrite length_take. simpl. lia.
  - rewrite take_ge, drop_ge by lia. rewrite chunks_nil.
    unfold chunks. rewrite batches_short by (simpl; lia). simpl.
    by rewrite bool_decide_eq_false_2.
Qed.


End chunks.

(** ** SQLite *)

Section sqlite.
Import Sqlite.



End sqlite.

(** ** import_openfoodfacts.py *)

Module OpenfoodfactsProofs.
Import Sqlite ImportOpenfoodfacts.

Lemma pad_or_truncate_length columns r :
  length (pad_or_truncate columns r) = length columns.
Proof.
  unfold pad_or_truncate, len. repeat case_bool_decide.
  - rewrite length_app, length_replicate. lia.
  - rewrite length_take. lia.
  - lia.
Qed.


Lemma current_commit c : current (conn_commit c) = current c.
Proof. reflexivity. Qed.















(** *** Where the commit discipline fails *)





End OpenfoodfactsProofs.

(** ** The commit discipline, event by event *)

Lemma commits_before_next_nil : commits_before_next [].
Proof. intros pre ev post H. by destruct pre. Qed.

Lemma commits_before_next_snoc tr ev :
  commits_before_next tr →
  (transfers ev = true → pending tr = false) →
  commits_before_next (tr ++ [ev]).
Proof.
  intros Htr Hev pre ev' post Heq Ht.
  destruct post as [|x post _] using rev_ind.
  - apply app_inj_tail in Heq as [-> ->]. by apply Hev.
  - rewrite app_comm_cons, (assoc_L (++)) in Heq.
    apply app_inj_tail in Heq as [-> _]. by eapply Htr.
Qed.

(** ** Insert-or-replace *)

Section replace.
Import Sqlite.

Lemma upsert_app cols rows0 rs1 rs2 :
  upsert cols rows0 (rs1 ++ rs2) = upsert cols (upsert cols rows0 rs1) rs2.
Proof. apply foldl_app. Qed.

Lemma insert_rows_replace tname n cols idx rows0 rs (db : database) :
  db !! tname = Some (Table cols idx rows0) →
  length cols = n →
  Forall (λ r, length r = n) rs →
  insert_rows REPLACE tname n rs db
  = (None, <[tname := Table cols idx (upsert cols rows0 rs)]> db).
Proof.
  intros Hdb Hn Hrs. revert rows0 db Hdb.
  induction Hrs as [|r rs Hr Hrs IH]; intros rows0 db Hdb; simpl.
  - by rewrite insert_id.
  - unfold insert_row. rewrite Hdb. simpl.
    rewrite !bool_decide_eq_true_2 by done. simpl.
    erewrite IH by apply lookup_insert_eq.
    by rewrite insert_insert_eq.
Qed.

End replace.

(** ** import_supabase_data.py *)

Module SupabaseProofs.
Import Sqlite ImportSupabaseData.

Lemma order_by_length {A} (key : A → value) (table : list A) :
  length (order_by key table) = length table.
Proof. unfold order_by. apply Permutation_length, merge_sort_Permutation. Qed.

Lemma history_record ev c s : history (record ev c s) = (ev, c) :: history s.
Proof. reflexivity. Qed.

Section export.
Context {A : Type}.
Variable key : A → value.
Variable to_row : A → row.
Variable tname : string.
Variable arity : nat.
Variable table : list A.

Lemma export_loop_unfold batch_size total offset exported :
  export_loop key to_row tname arity table batch_size total offset exported
  = if decide (offset < total) then
      match select_page key table batch_size offset with
      | None => raise PsycopgError
      | Some [] => fetch tname [];; mret exported
      | Some rows =>
          fetch tname (to_row <$> rows);;
          executemany REPLACE tname arity (to_row <$> rows);;
          commit;;
          export_loop key to_row tname arity table batch_size total
            (offset + batch_size) (exported + len rows)
      end
    else mret exported.
Proof.
  rewrite export_loop_equation_1.
  destruct (decide (offset < total)); simpl; [|done].
  unfold inspect.
  by destruct (select_page key table batch_size offset) as [[|a l']|].
Qed.

(** A property [kept] of connections that commits and the batches of this
    loop preserve. *)
Variable kept : connection → Prop.
Hypothesis to_row_length : ∀ a, length (to_row a) = arity.
Hypothesis kept_commit : ∀ c, kept c → kept (conn_commit c).
Hypothesis kept_executemany : ∀ c rs,
  kept c → Forall (λ r, length r = arity) rs →
  kept (conn_executemany REPLACE tname arity rs c).2.

(** The loop, started at [offset] on a connection without open transaction
    whose table [tname] has the width of the rows: it writes what is left of
    the ordered table, page by page, and commits each page. *)
Lemma export_loop_spec batch_size :
  1 ≤ batch_size →
  ∀ n offset exported s d cols idx rows0,
    length (drop (Z.to_nat offset) (order_by key table)) = n →
    0 ≤ offset →
    conn s = Connection d None →
    d !! tname = Some (Table cols idx rows0) →
    length cols = arity →
    kept (conn s) →
    let rest := drop (Z.to_nat offset) (order_by key table) in
    let pages := fmap (M:=list) to_row <$> chunks (Z.to_nat batch_size) rest in
    ∃ s' new,
      export_loop key to_row tname arity table batch_size (len table) offset exported s
      = (Ok (exported + len rest), s')
      ∧ conn s'
        = Connection (<[tname := Table cols idx (upsert cols rows0 (to_row <$> rest))]> d) None
      ∧ history s' = new ++ history s
      ∧ Forall (λ x, kept x.2) new
      ∧ kept (conn s')
      ∧ (∀ name, writes name (trace s')
                 = writes name (trace s) ++ (if bool_decide (tname = name) then pages else []))
      ∧ (∀ name, fetches name (trace s')
                 = fetches name (trace s) ++ (if bool_decide (tname = name) then pages else []))
      ∧ (commits_each_batch (trace s) → commits_each_batch (trace s')).
Proof.
  intros Hb n. induction n as [n IH] using lt_wf_ind.
  intros offset exported s d cols idx rows0 Hn Hoff Hconn Hd Hcols Hkept rest pages.
  rewrite export_loop_unfold.
  pose proof (order_by_length key table) as Hlen.
  destruct (decide (offset < len table)) as [Hlt|Hge].
  - assert (rest ≠ []) as Hrest.
    { intros Hnil. apply (f_equal length) in Hnil. unfold rest in Hnil.
      rewrite length_drop in Hnil. unfold len in Hlt. simpl in Hnil. lia. }
    unfold select_page. rewrite bool_decide_eq_false_2 by lia.
    fold rest.
    assert (pages = (to_row <$> take (Z.to_nat batch_size) rest)
                    :: (fmap (M:=list) to_row
                          <$> chunks (Z.to_nat batch_size) (drop (Z.to_nat batch_size) rest)))
      as Hpages.
    { unfold pages. rewrite chunks_unfold by (done || lia). by rewrite fmap_cons. }
    destruct (take (Z.to_nat batch_size) rest) as [|a page] eqn:Hpage.
    { destruct rest; [done|]. destruct (Z.to_nat batch_size) eqn:?; [lia|done]. }
    rewrite <- Hpage in *. set (page' := take (Z.to_nat batch_size) rest) in *.
    assert (Forall (λ r, length r = arity) (to_row <$> page')) as Hwidth.
    { apply Forall_fmap, Forall_true. intros x. apply to_row_length. }
    assert (drop (Z.to_nat (offset + batch_size)) (order_by key table)
            = drop (Z.to_nat batch_size) rest) as Hdrop.
    { unfold rest. rewrite drop_drop. f_equal. lia. }
    rewrite run_bind. unfold fetch at 1. set (s1 := record _ _ s).
    rewrite run_bind.
    assert (executemany REPLACE tname arity (to_row <$> page') s1
            = (Ok (), record (ExecuteMany tname (to_row <$> page'))
                        (conn_executemany REPLACE tname arity (to_row <$> page') (conn s)).2 s1))
      as ->.
    { unfold executemany, conn_executemany. change (conn s1) with (conn s).
      rewrite Hconn. unfold current. simpl.
      by erewrite insert_rows_replace. }
    set (s2 := record _ _ s1).
    rewrite run_bind. unfold commit at 1. set (s3 := record _ _ s2).
    set (d' := <[tname := Table cols idx (upsert cols rows0 (to_row <$> page'))]> d).
    assert (conn s2 = Connection d (Some d')) as Hconn2.
    { unfold s2. simpl. unfold conn_executemany. rewrite Hconn. unfold current. simpl.
      by erewrite insert_rows_replace. }
    assert (conn s3 = Connection d' None) as Hconn3.
    { change (conn s3) with (conn_commit (conn s2)). by rewrite Hconn2. }
    assert (kept (conn s2)) as Hkept2.
    { unfold s2. simpl. by apply kept_executemany. }
    assert (kept (conn s3)) as Hkept3.
    { change (conn s3) with (conn_commit (conn s2)). by apply kept_commit. }
    edestruct (IH (length (drop (Z.to_nat batch_size) rest)))
      with (offset := offset + batch_size) (exported := exported + len page') (s := s3)
      as (s' & new & Hrun & Hc & Hh & Hg & Hgs & Hw & Hf & Hp);
      [|by rewrite Hdrop|lia|exact Hconn3|apply lookup_insert_eq|done|done|].
    { rewrite length_drop. subst n. fold rest. destruct rest; [done|]. simpl. lia. }
    rewrite Hdrop in *.
    assert (len rest = len page' + len (drop (Z.to_nat batch_size) rest)) as Hsum.
    { unfold len, page'. rewrite <- Nat2Z.inj_add, <- length_app. by rewrite take_drop. }
    exists s', (new ++ [(Commit, conn s3); (ExecuteMany tname (to_row <$> page'), conn s2);
                        (Fetch tname (to_row <$> page'), conn s1)]).
    split; [|split; [|split; [|split; [|split; [done|split; [|split]]]]]].
    + rewrite Hrun. do 2 f_equal. lia.
    + rewrite Hc. unfold d'. rewrite insert_insert_eq. do 3 f_equal.
      rewrite <- upsert_app, <- fmap_app. unfold page'. by rewrite take_drop.
    + rewrite Hh. unfold s3, s2, s1. rewrite !history_record.
      by rewrite <- (assoc_L (++)).
    + apply Forall_app. split; [done|]. repeat constructor; done.
    + intros name. rewrite Hw. unfold s3, s2, s1.
      rewrite !trace_record, !writes_app, Hpages. simpl.
      case_bool_decide; rewrite ?app_nil_r; [by rewrite <- (assoc_L (++))|done].
    + intros name. rewrite Hf. unfold s3, s2, s1.
      rewrite !trace_record, !fetches_app, Hpages. simpl.
      case_bool_decide; rewrite ?app_nil_r; [by rewrite <- (assoc_L (++))|done].
    + intros [Hcb Hpend]. apply Hp. unfold s3, s2, s1. rewrite !trace_record.
      split; [|by rewrite pending_snoc].
      apply commits_before_next_snoc; [|done].
      apply commits_before_next_snoc; [|by rewrite pending_snoc].
      by apply commits_before_next_snoc.
  - assert (rest = []) as Hrest.
    { unfold rest. apply drop_ge. unfold len in Hge. lia. }
    rewrite run_ret. exists s, []. rewrite Hrest.
    split; [by rewrite Z.add_0_r|]. split; [|split; [done|split; [done|split; [done|]]]].
    + rewrite Hconn. simpl. by rewrite insert_id.
    + unfold pages. rewrite Hrest, chunks_nil. simpl.
      split; [|split; [|done]]; intros name; case_bool_decide; by rewrite app_nil_r.
Qed.

End export.

(** *** Uniqueness of ean13 *)

Lemma omap_sublist {A B} (f : A → option B) (l1 l2 : list A) :
  l1 `sublist_of` l2 → omap f l1 `sublist_of` omap f l2.
Proof.
  induction 1 as [|x l1 l2 _ IH|x l1 l2 _ IH]; simpl.
  - constructor.
  - destruct (f x); [by constructor|done].
  - destruct (f x); [by constructor|done].
Qed.

Lemma collide_products r r' :
  collide products_columns r r' = true ↔ ∃ v, ean13_of r = Some v ∧ ean13_of r' = Some v.
Proof.
  unfold collide, ean13_of. simpl. unfold collide_at. rewrite orb_false_r.
  destruct (r !! 3%nat) as [[|a]|], (r' !! 3%nat) as [[|b]|];
    try (split; [done|intros (v & ? & ?); done]).
  rewrite bool_decide_eq_true. split.
  - intros ->. by exists b.
  - by intros (v & [= ->] & [= ->]).
Qed.

(** Insert-or-replace keeps the ean13 of [products] unique, and the row
    written is then the only one with its ean13. *)
Lemma upsert_products_unique rows r :
  NoDup (omap ean13_of rows) →
  NoDup (omap ean13_of (upsert products_columns rows [r]))
  ∧ r ∈ upsert products_columns rows [r]
  ∧ ∀ r' v, r' ∈ upsert products_columns rows [r] →
            ean13_of r = Some v → ean13_of r' = Some v → r' = r.
Proof.
  intros Hnd. unfold upsert. simpl.
  set (kept := filter (λ r', collide products_columns r r' = false) rows).
  assert (∀ r' v, r' ∈ kept → ean13_of r = Some v → ean13_of r' = Some v → False) as Hkept.
  { intros r' v [Hc _]%list_elem_of_filter Hr Hr'.
    assert (collide products_columns r r' = true) as Ht by (apply collide_products; eauto).
    congruence. }
  split; [|split].
  - rewrite omap_app. apply NoDup_app. split; [|split].
    + eapply sublist_NoDup; [exact Hnd|]. apply omap_sublist, sublist_filter.
    + intros v (r' & Hr' & Hv)%list_elem_of_omap Hin. simpl in Hin.
      destruct (ean13_of r) as [v'|] eqn:Hr; [|by apply elem_of_nil in Hin].
      apply list_elem_of_singleton in Hin as ->. by eapply Hkept.
    + simpl. destruct (ean13_of r); repeat constructor. by intros ?%elem_of_nil.
  - apply elem_of_app. right. apply list_elem_of_here.
  - intros r' v [Hin|Hin%list_elem_of_singleton]%elem_of_app Hr Hr'; [|done].
    by destruct (Hkept r' v).
Qed.

Lemma insert_row_products_unique (db db' : database) n r :
  ean13_unique db →
  insert_row REPLACE "products" n r db = inr db' →
  ean13_unique db'.
Proof.
  intros (t & Ht & Hcols & Hnd). unfold insert_row. rewrite Ht.
  repeat case_bool_decide; simpl; try done.
  intros [= <-]. eexists. split; [apply lookup_insert_eq|]. simpl. split; [done|].
  rewrite Hcols. by apply (upsert_products_unique (t_rows t) r).
Qed.

Lemma insert_row_other_unique (db db' : database) on_conflict tname n r :
  tname ≠ "products" →
  ean13_unique db →
  insert_row on_conflict tname n r db = inr db' →
  ean13_unique db'.
Proof.
  intros Hne (t & Ht & Hcols & Hnd). unfold insert_row.
  destruct (db !! tname) as [t'|]; [|done].
  repeat case_bool_decide; simpl; try done.
  destruct on_conflict.
  - destruct (existsb _ _); [done|]. intros [= <-].
    exists t. by rewrite lookup_insert_ne.
  - intros [= <-]. exists t. by rewrite lookup_insert_ne.
Qed.

Lemma insert_rows_unique (db : database) tname n rs :
  ean13_unique db →
  ean13_unique (insert_rows REPLACE tname n rs db).2.
Proof.
  revert db. induction rs as [|r rs IH]; intros db Hdb; simpl; [done|].
  destruct (insert_row REPLACE tname n r db) as [e|db'] eqn:Hins; [done|].
  apply IH. destruct (decide (tname = "products")) as [->|Hne].
  - by eapply insert_row_products_unique.
  - by eapply insert_row_other_unique.
Qed.

Lemma ean13_unique_commit c : ean13_unique_conn c → ean13_unique_conn (conn_commit c).
Proof. by intros [H _]. Qed.

Lemma ean13_unique_executemany tname n c rs :
  ean13_unique_conn c → ean13_unique_conn (conn_executemany REPLACE tname n rs c).2.
Proof.
  intros [Hcur Hdisk]. unfold conn_executemany.
  pose proof (insert_rows_unique (current c) tname n rs Hcur) as H.
  destruct (insert_rows REPLACE tname n rs (current c)) as [e w]. by split.
Qed.

(** *** Schema creation *)

Lemma execute_ok sql s c :
  conn_execute sql (conn s) = inr c →
  execute sql s = (Ok (), record (Execute sql) c s).
Proof. intros H. unfold execute. by rewrite H. Qed.

Lemma conn_execute_create_table name cols (d : database) :
  d !! name = None →
  cols ≠ [] →
  NoDup (fold_case ∘ col_name <$> cols) →
  conn_execute (CREATE_TABLE name cols) (Connection d None)
  = inr (Connection (<[name := Table cols [] []]> d) None).
Proof.
  intros Hd Hne Hnd. unfold conn_execute. simpl. unfold create_table. rewrite Hd.
  rewrite bool_decide_eq_false_2 by done. by rewrite bool_decide_eq_true_2.
Qed.

Lemma conn_execute_create_index iname tname col cols idx rows (d : database) :
  d !! tname = Some (Table cols idx rows) →
  has_column col cols = true →
  iname ∉ idx.*1 →
  conn_execute (CREATE_INDEX iname tname col) (Connection d None)
  = inr (Connection (<[tname := Table cols (idx ++ [(iname, col)]) rows]> d) None).
Proof.
  intros Hd Hcol Hidx. unfold conn_execute. simpl. unfold create_index. rewrite Hd. simpl.
  rewrite Hcol. by rewrite bool_decide_eq_false_2.
Qed.

Lemma commits_before_next_quiet tr :
  Forall (λ ev, transfers ev = false) tr → commits_before_next tr.
Proof.
  intros Hq pre ev post -> Ht.
  apply Forall_app in Hq as [_ Hq]. apply Forall_cons in Hq as [Hq _]. congruence.
Qed.

Lemma products_columns_NoDup : NoDup (fold_case ∘ col_name <$> products_columns).
Proof. apply (bool_decide_unpack _). by vm_compute. Qed.

Lemma ingredients_columns_NoDup : NoDup (fold_case ∘ col_name <$> ingredients_columns).
Proof. apply (bool_decide_unpack _). by vm_compute. Qed.

Lemma create_sqlite_db_run db :
  ∃ s,
    create_sqlite_db (State (connect db) []) = (Ok (), s)
    ∧ conn s = Connection (created_db db) None
    ∧ Forall ean13_unique_conn (since_creation false (reverse (history s)))
    ∧ existsb creates_products (reverse (history s)).*1 = true
    ∧ (∀ name, writes name (trace s) = [])
    ∧ (∀ name, fetches name (trace s) = [])
    ∧ commits_each_batch (trace s).
Proof.
  unfold create_sqlite_db.
  do 4 (rewrite run_bind; erewrite execute_ok by reflexivity).
  do 2 (rewrite run_bind; erewrite execute_ok by reflexivity).
  simpl conn_execute. unfold drop_table_if_exists.
  rewrite run_bind. erewrite execute_ok.
  2:{ apply conn_execute_create_table;
        [by simplify_map_eq|done|apply products_columns_NoDup]. }
  rewrite run_bind. erewrite execute_ok.
  2:{ apply conn_execute_create_table;
        [by simplify_map_eq|done|apply ingredients_columns_NoDup]. }
  rewrite run_bind. erewrite execute_ok.
  2:{ eapply conn_execute_create_index;
        [by simplify_map_eq|by vm_compute|by intros ?%elem_of_nil]. }
  rewrite run_bind. erewrite execute_ok.
  2:{ eapply conn_execute_create_index;
        [by simplify_map_eq|by vm_compute|by apply (bool_decide_unpack _); vm_compute]. }
  rewrite run_bind. erewrite execute_ok.
  2:{ eapply conn_execute_create_index;
        [by simplify_map_eq|by vm_compute|by intros ?%elem_of_nil]. }
  rewrite run_bind. erewrite execute_ok.
  2:{ eapply conn_execute_create_index;
        [by simplify_map_eq|by vm_compute|by apply (bool_decide_unpack _); vm_compute]. }
  eexists. split; [reflexivity|].
  assert (∀ (d : database) tp ti,
            ean13_unique (<["ingredients" := ti]> (<["products" :=
              Table products_columns tp []]> d))) as Hboth.
  { intros d tp ti. eexists. split; [by simplify_map_eq|]. split; [done|constructor]. }
  assert (∀ (d : database) tp,
            ean13_unique (<["products" := Table products_columns tp []]> d)) as Hone.
  { intros d tp. eexists. split; [by simplify_map_eq|]. split; [done|constructor]. }
  split; [|split; [|split; [|split; [|split]]]].
  - unfold conn_commit, current, created_db. simpl. f_equal. apply map_eq. intros k.
    destruct (decide (k = "products")) as [->|?]; [by simplify_map_eq|].
    destruct (decide (k = "ingredients")) as [->|?]; by simplify_map_eq.
  - simpl. repeat constructor; simpl;
      repeat first [rewrite insert_insert_eq | rewrite (insert_insert_ne _ "products" "ingredients") by done; rewrite insert_insert_eq];
      first [apply Hboth | apply Hone].
  - done.
  - done.
  - done.
  - split; [|done]. apply commits_before_next_quiet. simpl. repeat constructor.
Qed.

(** *** A whole run *)

Lemma since_creation_true h : since_creation true h = h.*2.
Proof. induction h as [|[ev c] h IH]; simpl; [done|by rewrite IH]. Qed.

Lemma since_creation_app b h1 h2 :
  since_creation b (h1 ++ h2)
  = since_creation b h1 ++ since_creation (b || existsb creates_products h1.*1) h2.
Proof.
  revert b. induction h1 as [|[ev c] h1 IH]; intros b; simpl.
  - by rewrite orb_false_r.
  - by rewrite IH, <- (assoc_L (++)), orb_assoc.
Qed.

Lemma ean13_unique_insert_other (d : database) name t :
  name ≠ "products" → ean13_unique d → ean13_unique (<[name := t]> d).
Proof.
  intros Hne (t' & Ht' & H). exists t'. by rewrite lookup_insert_ne.
Qed.

Lemma ean13_unique_insert_empty (d : database) idx :
  ean13_unique (<["products" := Table products_columns idx []]> d).
Proof.
  eexists. split; [apply lookup_insert_eq|]. split; [done|constructor].
Qed.

Lemma ean13_unique_created_db db : ean13_unique_conn (Connection (created_db db) None).
Proof.
  split; simpl; apply ean13_unique_insert_other, ean13_unique_insert_empty; done.
Qed.

Lemma try_block_run bp bi pg db :
  1 ≤ bp → 1 ≤ bi →
  ∃ s,
    try_block bp bi pg (State (connect db) [])
    = (Ok (len (products pg), len (ingredients pg)), s)
    ∧ conn s = Connection (exported_db pg db) None
    ∧ Forall ean13_unique_conn (since_creation false (reverse (history s)))
    ∧ writes "products" (trace s)
      = (fmap (M:=list) product_row
           <$> chunks (Z.to_nat bp) (order_by p_ean13 (products pg)))
    ∧ writes "ingredients" (trace s)
      = (fmap (M:=list) ingredient_row
           <$> chunks (Z.to_nat bi) (order_by i_title (ingredients pg)))
    ∧ fetches "products" (trace s) = writes "products" (trace s)
    ∧ fetches "ingredients" (trace s) = writes "ingredients" (trace s)
    ∧ commits_each_batch (trace s).
Proof.
  intros Hbp Hbi. unfold try_block.
  destruct (create_sqlite_db_run db) as (s1 & Hrun1 & Hc1 & Hg1 & He1 & Hw1 & Hf1 & Hp1).
  rewrite run_bind, Hrun1.
  assert (ean13_unique_conn (conn s1)) as Hcreated.
  { rewrite Hc1. apply ean13_unique_created_db. }
  rewrite run_bind. unfold export_products_with.
  edestruct (export_loop_spec p_ean13 product_row "products" 12%nat (products pg) ean13_unique_conn)
    with (batch_size := bp) (offset := 0) (exported := 0) (s := s1)
    as (s2 & new2 & -> & Hc2 & Hh2 & Hg2 & Hgood2 & Hw2 & Hf2 & Hp2);
    [done|apply ean13_unique_commit|by intros; apply ean13_unique_executemany|done|done|lia|exact Hc1
    |by unfold created_db; rewrite lookup_insert_ne by done; apply lookup_insert_eq
    |done|done|].
  rewrite run_bind. unfold export_ingredients_with.
  edestruct (export_loop_spec i_title ingredient_row "ingredients" 6%nat (ingredients pg) ean13_unique_conn)
    with (batch_size := bi) (offset := 0) (exported := 0) (s := s2)
    as (s3 & new3 & -> & Hc3 & Hh3 & Hg3 & Hgood3 & Hw3 & Hf3 & Hp3);
    [done|apply ean13_unique_commit|by intros; apply ean13_unique_executemany|done|done|lia|exact Hc2
    |by unfold created_db; rewrite lookup_insert_ne by done; apply lookup_insert_eq
    |done|done|].
  rewrite run_ret. change (Z.to_nat 0) with 0%nat in *. rewrite !drop_0 in *.
  exists s3.
  split; [by unfold len; rewrite !order_by_length|]. split; [|split; [|split; [|split; [|split; [|split]]]]].
  - rewrite Hc3. unfold exported_db, created_db. f_equal. apply map_eq. intros k.
    destruct (decide (k = "products")) as [->|?]; [by simplify_map_eq|].
    destruct (decide (k = "ingredients")) as [->|?]; by simplify_map_eq.
  - rewrite Hh3, Hh2, !reverse_app, !since_creation_app.
    rewrite fmap_app, existsb_app, He1. simpl.
    rewrite !since_creation_true. repeat (apply Forall_app; split); [done|..].
    + by apply Forall_fmap, Forall_reverse.
    + by apply Forall_fmap, Forall_reverse.
  - by rewrite Hw3, Hw2, Hw1, app_nil_r.
  - by rewrite Hw3, Hw2, Hw1.
  - by rewrite Hf3, Hf2, Hf1, Hw3, Hw2, Hw1.
  - by rewrite Hf3, Hf2, Hf1, Hw3, Hw2, Hw1.
  - auto.
Qed.





End SupabaseProofs.

(** * The properties of the specification *)

Import Sqlite.












Lemma nonempty_fmap_fmap {A B} (f : A → B) (bs : list (list A)) :
  Forall (λ b, b ≠ []) bs → Forall (λ b, b ≠ []) (fmap (M:=list) f <$> bs).
Proof.
  intros H. apply Forall_fmap. eapply Forall_impl; [exact H|].
  intros b Hb. simpl. by destruct b.
Qed.







(** C3, as the code has it.  The remote copy exits with status 1 whenever
    it does not get to its final report, in particular when the server cannot
    be reached.  The text import has no non-zero exit: a missing input file
    or a missing database file makes [main] return early, any other failure
    is caught, and the process ends with status 0 in every case. *)
Theorem exit_status_of_a_run :
  (∀ bp bi w,
     ImportSupabaseData.remote w = None →
     ImportSupabaseData.exit_code (ImportSupabaseData.main_with bp bi w) = 1)
  ∧ (∀ bp bi w,
       ImportSupabaseData.report (ImportSupabaseData.main_with bp bi w) = None →
       ImportSupabaseData.exit_code (ImportSupabaseData.main_with bp bi w) = 1)
  ∧ (∀ batch_size fs,
       ImportOpenfoodfacts.exit_code (ImportOpenfoodfacts.main_with batch_size fs) = 0)
  ∧ (∀ batch_size fs,
       ImportOpenfoodfacts.csv_file fs = None ∨ ImportOpenfoodfacts.db_file fs = None →
       ImportOpenfoodfacts.report (ImportOpenfoodfacts.main_with batch_size fs) = None
       ∧ ImportOpenfoodfacts.final (ImportOpenfoodfacts.main_with batch_size fs) = None
       ∧ ImportOpenfoodfacts.db_after (ImportOpenfoodfacts.main_with batch_size fs)
         = ImportOpenfoodfacts.db_file fs).
Proof.
  split; [|split; [|split]].
  - intros bp bi w Hw. unfold ImportSupabaseData.main_with. by rewrite Hw.
  - intros bp bi w. unfold ImportSupabaseData.main_with.
    destruct (ImportSupabaseData.remote w) as [pg|]; [|done].
    by destruct (ImportSupabaseData.try_block bp bi pg _) as [[r|e] s].
  - intros batch_size fs. unfold ImportOpenfoodfacts.main_with.
    destruct (ImportOpenfoodfacts.csv_file fs) as [f|]; [|done].
    destruct (ImportOpenfoodfacts.db_file fs) as [db|]; [|done].
    by destruct (ImportOpenfoodfacts.try_block batch_size f _) as [[r|e] s].
  - intros batch_size fs Hmissing. unfold ImportOpenfoodfacts.main_with.
    destruct (ImportOpenfoodfacts.csv_file fs) as [f|] eqn:Hf; [|done].
    destruct (ImportOpenfoodfacts.db_file fs) as [db|] eqn:Hdb; [|done].
    by destruct Hmissing.
Qed.

Lemma exit_status_of_a_run_witness :
  ImportSupabaseData.exit_code (ImportSupabaseData.main unreachable_server) = 1
  ∧ ImportOpenfoodfacts.exit_code (ImportOpenfoodfacts.main missing_input_file) = 0
  ∧ ImportOpenfoodfacts.exit_code (ImportOpenfoodfacts.main missing_database) = 0.
Proof.
  split; [|split].
  - exact (proj1 exit_status_of_a_run 10000 20000 unreachable_server eq_refl).
  - exact (proj1 (proj2 (proj2 exit_status_of_a_run)) 10000 missing_input_file).
  - exact (proj1 (proj2 (proj2 exit_status_of_a_run)) 10000 missing_database).
Defined.

(** C3 as stated fails on the text import: with the input file missing, and
    with the database file missing, the process ends with status 0. *)
Lemma nonzero_exit_on_failure_counterexample :
  ImportOpenfoodfacts.csv_file missing_input_file = None
  ∧ ImportOpenfoodfacts.exit_code (ImportOpenfoodfacts.main missing_input_file) = 0
  ∧ ImportOpenfoodfacts.db_file missing_database = None
  ∧ ImportOpenfoodfacts.exit_code (ImportOpenfoodfacts.main missing_database) = 0.
Proof. repeat split. Qed.

(** C7.  When the server cannot be reached the remote copy stops before it
    opens the database file: no statement is run, no table is created,
    dropped or altered, and the file is what it was, also when it did not
    exist. *)
Theorem unreachable_server_leaves_the_destination bp bi w :
  ImportSupabaseData.remote w = None →
  ImportSupabaseData.db_after (ImportSupabaseData.main_with bp bi w)
  = ImportSupabaseData.db_file w
  ∧ ImportSupabaseData.final (ImportSupabaseData.main_with bp bi w) = None
  ∧ ImportSupabaseData.report (ImportSupabaseData.main_with bp bi w) = None
  ∧ ImportSupabaseData.exit_code (ImportSupabaseData.main_with bp bi w) = 1.
Proof. intros Hw. unfold ImportSupabaseData.main_with. by rewrite Hw. Qed.

Lemma unreachable_server_leaves_the_destination_witness :
  ImportSupabaseData.db_after (ImportSupabaseData.main unreachable_server)
  = ImportSupabaseData.db_file unreachable_server
  ∧ ImportSupabaseData.final (ImportSupabaseData.main unreachable_server) = None
  ∧ ImportSupabaseData.report (ImportSupabaseData.main unreachable_server) = None
  ∧ ImportSupabaseData.exit_code (ImportSupabaseData.main unreachable_server) = 1.
Proof.
  exact (unreachable_server_leaves_the_destination 10000 20000 unreachable_server eq_refl).
Defined.





(** * Further properties of the code *)

(** ** Normalization *)

(** X1. Padding and truncating never change a field in place: the fields
    that a record and the header width have in common stay where they were;
    the positions added hold the empty string; and normalizing twice is
    normalizing once. *)
Theorem normalization_keeps_fields_in_place columns raw :
  (∀ i, (i < length raw)%nat → (i < length columns)%nat →
        ImportOpenfoodfacts.pad_or_truncate columns raw !! i = raw !! i)
  ∧ (∀ i, (length raw ≤ i < length columns)%nat →
          ImportOpenfoodfacts.pad_or_truncate columns raw !! i = Some "")
  ∧ ImportOpenfoodfacts.pad_or_truncate columns
      (ImportOpenfoodfacts.pad_or_truncate columns raw)
    = ImportOpenfoodfacts.pad_or_truncate columns raw.
Proof.
  split; [|split].
  - intros i Hraw Hcols. unfold ImportOpenfoodfacts.pad_or_truncate, len.
    repeat case_bool_decide; [by rewrite lookup_app_l| |done].
    by apply lookup_take_lt.
  - intros i Hi. unfold ImportOpenfoodfacts.pad_or_truncate, len.
    rewrite bool_decide_eq_true_2 by lia.
    rewrite lookup_app_r by lia. apply lookup_replicate_2. lia.
  - pose proof (OpenfoodfactsProofs.pad_or_truncate_length columns raw) as Hlen.
    generalize dependent (ImportOpenfoodfacts.pad_or_truncate columns raw).
    intros r Hr. unfold ImportOpenfoodfacts.pad_or_truncate, len.
    by rewrite !bool_decide_eq_false_2 by lia.
Qed.

(** ** The text import at its edges *)


(** X2. A file without any line, not even a header: [next(reader)] raises
    in [get_csv_columns], the exception is caught, and nothing is done to the
    database — no statement is run, the table of an earlier run stays — and
    no report is made. *)
Theorem empty_file_changes_nothing batch_size fs db :
  ImportOpenfoodfacts.csv_file fs = Some [] →
  ImportOpenfoodfacts.db_file fs = Some db →
  ImportOpenfoodfacts.db_after (ImportOpenfoodfacts.main_with batch_size fs) = Some db
  ∧ ImportOpenfoodfacts.report (ImportOpenfoodfacts.main_with batch_size fs) = None
  ∧ ImportOpenfoodfacts.exit_code (ImportOpenfoodfacts.main_with batch_size fs) = 0
  ∧ ∃ s,
      ImportOpenfoodfacts.final (ImportOpenfoodfacts.main_with batch_size fs) = Some s
      ∧ trace s = [].
Proof.
  intros Hcsv Hdb. unfold ImportOpenfoodfacts.main_with. rewrite Hcsv, Hdb. simpl.
  repeat split. by eexists.
Qed.

Lemma empty_file_changes_nothing_witness :
  ImportOpenfoodfacts.db_after (ImportOpenfoodfacts.main (empty_file used_database))
  = Some used_database
  ∧ ImportOpenfoodfacts.report (ImportOpenfoodfacts.main (empty_file used_database)) = None
  ∧ ImportOpenfoodfacts.exit_code (ImportOpenfoodfacts.main (empty_file used_database)) = 0
  ∧ ∃ s,
      ImportOpenfoodfacts.final (ImportOpenfoodfacts.main (empty_file used_database)) = Some s
      ∧ trace s = [].
Proof.
  exact (empty_file_changes_nothing 10000 (empty_file used_database) used_database
           eq_refl eq_refl).
Defined.







(** ** Commits of the text import *)







(** ** The shape of the batches *)





(** ** The remote copy, page by page *)

Lemma main_with_pages bp bi w pg :
  ImportSupabaseData.remote w = Some pg → 1 ≤ bp → 1 ≤ bi →
  ∃ s,
    ImportSupabaseData.main_with bp bi w
    = ImportSupabaseData.Outcome 0
        (Some (exported_db pg (default ∅ (ImportSupabaseData.db_file w))))
        (Some (len (ImportSupabaseData.products pg), len (ImportSupabaseData.ingredients pg)))
        (Some s)
    ∧ writes "products" (trace s)
      = (fmap (M:=list) ImportSupabaseData.product_row
           <$> chunks (Z.to_nat bp)
                 (ImportSupabaseData.order_by ImportSupabaseData.p_ean13
                    (ImportSupabaseData.products pg)))
    ∧ writes "ingredients" (trace s)
      = (fmap (M:=list) ImportSupabaseData.ingredient_row
           <$> chunks (Z.to_nat bi)
                 (ImportSupabaseData.order_by ImportSupabaseData.i_title
                    (ImportSupabaseData.ingredients pg)))
    ∧ fetches "products" (trace s) = writes "products" (trace s)
    ∧ fetches "ingredients" (trace s) = writes "ingredients" (trace s).
Proof.
  intros Hpg Hbp Hbi. unfold ImportSupabaseData.main_with. rewrite Hpg.
  destruct (SupabaseProofs.try_block_run bp bi pg
              (default ∅ (ImportSupabaseData.db_file w)))
    as (s & -> & Hc & _ & Hwp & Hwi & Hfp & Hfi & _); [done..|].
  exists s. by rewrite Hc.
Qed.

(** X8. In the remote copy every page that a SELECT returns is written by
    the INSERT that follows, record for record: the run makes as many batch
    writes on a table as it fetched pages from it, and no page comes back
    empty, so the loop ends on its condition [offset < total] and never on
    its [break]. *)
Theorem pages_are_written_as_fetched bp bi w pg :
  ImportSupabaseData.remote w = Some pg →
  1 ≤ bp → 1 ≤ bi →
  ∃ s,
    ImportSupabaseData.final (ImportSupabaseData.main_with bp bi w) = Some s
    ∧ fetches "products" (trace s) = writes "products" (trace s)
    ∧ fetches "ingredients" (trace s) = writes "ingredients" (trace s)
    ∧ ([] ∉ fetches "products" (trace s))
    ∧ ([] ∉ fetches "ingredients" (trace s)).
Proof.
  intros Hpg Hbp Hbi.
  destruct (main_with_pages bp bi w pg Hpg Hbp Hbi) as (s & -> & Hwp & Hwi & Hfp & Hfi).
  exists s. split; [done|]. split; [done|]. split; [done|].
  rewrite Hfp, Hfi, Hwp, Hwi.
  split; intros Hin;
    eapply (proj1 (Forall_forall _ _) (nonempty_fmap_fmap _ _ (chunks_nonempty _ _)));
    first [exact Hin|reflexivity].
Qed.

Lemma pages_are_written_as_fetched_witness :
  ∃ s,
    ImportSupabaseData.final (ImportSupabaseData.main_with 2 1 example_world) = Some s
    ∧ fetches "products" (trace s) = writes "products" (trace s)
    ∧ fetches "ingredients" (trace s) = writes "ingredients" (trace s)
    ∧ ([] ∉ fetches "products" (trace s))
    ∧ ([] ∉ fetches "ingredients" (trace s)).
Proof.
  apply (pages_are_written_as_fetched 2 1 example_world example_server);
    [reflexivity|lia|lia].
Defined.





(** ** Insert-or-replace, row by row *)



Section key.
Variable cols : list column.
Variable i : nat.
Hypothesis unique_column : unique_positions cols = [i].







End key.


(** ** What the remote copy leaves in its tables *)











(** ** A commit for every million *)








(** ** The batch size is a matter of speed only *)



